(** * Mini Notes: the client synchronisation flow

    A shallow embedding of the front end of the Mini Notes application:
    - [api/client.ts]: the axios client and its response interceptor;
    - [store/notesSlice.ts]: the [notes] slice, its reducers and the two
      async thunks [fetchNotes] and [createNote];
    - [App.tsx]: the callbacks [handleSearch] and [handleCreate];
    - [components/NoteForm.tsx] and [components/SearchBar.tsx]: the
      submit, search and clear handlers.

    JavaScript strings are sequences of UTF-16 code units.  Asynchronous
    code runs in a state-and-exception monad over a [World]: the Redux
    store, the local state of the two components, the log of HTTP
    requests, the log of reduced actions, and the queue of final actions
    of thunks that were dispatched without [await].  The network and the
    server are a parameter, a [Transport], so that every statement holds
    for every behaviour of the server. *)

From Stdlib Require Import List NArith Bool String Ascii Lia.
From Stdlib Require Import PeanoNat.
Import ListNotations.

Set Implicit Arguments.

(** ** JavaScript strings *)

(** A string is the list of its UTF-16 code units. *)
Definition jsstring := list N.

(** The code units of an ASCII literal of the source. *)
Fixpoint lit (s : string) : jsstring :=
  match s with
  | EmptyString => []
  | String a r => N_of_ascii a :: lit r
  end.

(** [s ? _ : _] on a string: the empty string is the only falsy one. *)
Definition truthy (s : jsstring) : bool :=
  match s with
  | [] => false
  | _ :: _ => true
  end.

(** ECMAScript WhiteSpace and LineTerminator code points, the characters
    that [String.prototype.trim] strips: TAB, LF, VT, FF, CR, SP, NBSP,
    U+1680, U+2000..U+200A, U+2028, U+2029, U+202F, U+205F, U+3000 and
    U+FEFF. *)
Definition isWhiteSpace (c : N) : bool :=
  ((9 <=? c) && (c <=? 13)
   || (c =? 32) || (c =? 160) || (c =? 5760)
   || (8192 <=? c) && (c <=? 8202)
   || (c =? 8232) || (c =? 8233) || (c =? 8239) || (c =? 8287)
   || (c =? 12288) || (c =? 65279))%N.

Fixpoint trimStart (s : jsstring) : jsstring :=
  match s with
  | [] => []
  | c :: r => if isWhiteSpace c then trimStart r else s
  end.

Definition trimEnd (s : jsstring) : jsstring := rev (trimStart (rev s)).

(** [String.prototype.trim]. *)
Definition trim (s : jsstring) : jsstring := trimEnd (trimStart s).

(** A string that starts and ends with a character that is not white
    space (or is empty). *)
Definition no_outer_whitespace (s : jsstring) : bool :=
  match s with
  | [] => true
  | c :: _ => negb (isWhiteSpace c)
  end
  &&
  match rev s with
  | [] => true
  | c :: _ => negb (isWhiteSpace c)
  end.

(** [a ?? b]: [b] only when [a] is [null] or [undefined]. *)
Definition nullish {A : Type} (a : option A) (b : A) : A :=
  match a with
  | Some x => x
  | None => b
  end.

(** ** types/note.ts *)

Record Note := mkNote {
  id : jsstring;
  title : jsstring;
  content : jsstring;
  created_at : jsstring
}.

Record NoteCreate := mkNoteCreate {
  nc_title : jsstring;
  nc_content : jsstring
}.

(** ** store/notesSlice.ts: state, actions, reducer *)

Record NotesState := mkNotesState {
  items : list Note;
  loading : bool;
  creating : bool;
  error : option jsstring;
  query : jsstring
}.

Definition initialState : NotesState :=
  {| items := []; loading := false; creating := false;
     error := None; query := [] |}.

(** The actions the slice reacts to.  The payload of a [rejected] action is
    the value given to [rejectWithValue], and is [undefined] ([None]) when
    the payload creator threw instead. *)
Inductive Action :=
| SetQuery (payload : jsstring)
| ClearError
| FetchNotesPending
| FetchNotesFulfilled (payload : list Note)
| FetchNotesRejected (payload : option jsstring)
| CreateNotePending
| CreateNoteFulfilled (payload : Note)
| CreateNoteRejected (payload : option jsstring).

Definition notesReducer (state : NotesState) (action : Action) : NotesState :=
  match action with
  | SetQuery payload =>
      {| items := items state; loading := loading state;
         creating := creating state; error := error state;
         query := payload |}
  | ClearError =>
      {| items := items state; loading := loading state;
         creating := creating state; error := None;
         query := query state |}
  | FetchNotesPending =>
      {| items := items state; loading := true;
         creating := creating state; error := None;
         query := query state |}
  | FetchNotesFulfilled payload =>
      {| items := payload; loading := false;
         creating := creating state; error := error state;
         query := query state |}
  | FetchNotesRejected payload =>
      {| items := items state; loading := false;
         creating := creating state;
         error := Some (nullish payload (lit "Failed to fetch notes"));
         query := query state |}
  | CreateNotePending =>
      {| items := items state; loading := loading state;
         creating := true; error := None;
         query := query state |}
  | CreateNoteFulfilled payload =>
      {| items := items state ++ [payload]; loading := loading state;
         creating := false; error := error state;
         query := query state |}
  | CreateNoteRejected payload =>
      {| items := items state; loading := loading state;
         creating := false;
         error := Some (nullish payload (lit "Failed to create note"));
         query := query state |}
  end.

(** ** Thrown values, requests and the transport *)

(** What a rejected promise can carry.  An [AxiosError] is an [Error] with
    the flag [isAxiosError]; of the response body only the two fields the
    interceptor reads are kept ([response?.data?.error?.message] and
    [response?.data?.detail], [None] when any link of the chain is
    nullish).  [NonError] stands for any value that is not an instance of
    [Error]. *)
Inductive Thrown :=
| AxiosError (data_error_message data_detail message : option jsstring)
| Error (message : jsstring)
| NonError.

(** The two requests of the client: [GET /notes] with optional [params.q]
    and [POST /notes] with its JSON body. *)
Inductive Request :=
| GET_notes (q : option jsstring)
| POST_notes (data : NoteCreate).

(** The network and the server behind it, as seen before the response
    interceptor: each call either yields the response data or fails.  The
    answer may depend on the requests sent so far. *)
Record Transport := mkTransport {
  http_get : list Request -> option jsstring -> Thrown + list Note;
  http_post : list Request -> NoteCreate -> Thrown + Note
}.

(** ** The world and the monad of asynchronous code *)

Record NoteFormState := mkNoteFormState {
  form_title : jsstring;
  form_content : jsstring
}.

Record World := mkWorld {
  store : NotesState;          (* the Redux store's [notes] slice *)
  noteForm : NoteFormState;    (* [useState] of NoteForm *)
  searchInput : jsstring;      (* [useState] of SearchBar *)
  sent : list Request;         (* HTTP requests issued, oldest first *)
  dispatched : list Action;    (* actions reduced so far, oldest first *)
  inflight : list Action       (* final actions of thunks nobody awaits *)
}.

Inductive Result (A : Type) :=
| Ret (a : A)
| Throw (e : Thrown).
Arguments Ret {A} a.
Arguments Throw {A} e.

(** An asynchronous computation: it transforms the world and either
    resolves with a value or rejects with a thrown value. *)
Definition M (A : Type) := World -> Result A * World.

Definition ret {A} (a : A) : M A := fun w => (Ret a, w).

Definition bind {A B} (c : M A) (k : A -> M B) : M B :=
  fun w =>
    match c w with
    | (Ret a, w') => k a w'
    | (Throw e, w') => (Throw e, w')
    end.

(** [try { c } catch (error) { h error }]. *)
Definition try_catch {A} (c : M A) (h : Thrown -> M A) : M A :=
  fun w =>
    match c w with
    | (Ret a, w') => (Ret a, w')
    | (Throw e, w') => h e w'
    end.

Declare Scope js_scope.
Delimit Scope js_scope with js.
Notation "x <- c ;; k" := (bind c (fun x => k))
  (at level 61, c at next level, right associativity) : js_scope.
Notation "c ;; k" := (bind c (fun _ => k))
  (at level 61, right associativity) : js_scope.
Local Open Scope js_scope.

Definition get_world : M World := fun w => (Ret w, w).

(** [store.dispatch] of a plain action. *)
Definition dispatch (a : Action) : M unit :=
  fun w =>
    (Ret tt,
     {| store := notesReducer (store w) a; noteForm := noteForm w;
        searchInput := searchInput w; sent := sent w;
        dispatched := dispatched w ++ [a]; inflight := inflight w |}).

(** A thunk that is not awaited delivers its final action later. *)
Definition defer (a : Action) : M unit :=
  fun w =>
    (Ret tt,
     {| store := store w; noteForm := noteForm w;
        searchInput := searchInput w; sent := sent w;
        dispatched := dispatched w; inflight := inflight w ++ [a] |}).

Definition setTitle (s : jsstring) : M unit :=
  fun w =>
    (Ret tt,
     {| store := store w;
        noteForm := {| form_title := s;
                       form_content := form_content (noteForm w) |};
        searchInput := searchInput w; sent := sent w;
        dispatched := dispatched w; inflight := inflight w |}).

Definition setContent (s : jsstring) : M unit :=
  fun w =>
    (Ret tt,
     {| store := store w;
        noteForm := {| form_title := form_title (noteForm w);
                       form_content := s |};
        searchInput := searchInput w; sent := sent w;
        dispatched := dispatched w; inflight := inflight w |}).

Definition setInput (s : jsstring) : M unit :=
  fun w =>
    (Ret tt,
     {| store := store w; noteForm := noteForm w;
        searchInput := s; sent := sent w;
        dispatched := dispatched w; inflight := inflight w |}).

Definition log_request (r : Request) : M unit :=
  fun w =>
    (Ret tt,
     {| store := store w; noteForm := noteForm w;
        searchInput := searchInput w; sent := sent w ++ [r];
        dispatched := dispatched w; inflight := inflight w |}).

(** ** api/client.ts *)

Definition isAxiosError (error : Thrown) : bool :=
  match error with
  | AxiosError _ _ _ => true
  | _ => false
  end.

(** The rejection handler of the response interceptor: it always returns
    a rejected promise. *)
Definition responseInterceptor {A} (error : Thrown) : Result A :=
  match error with
  | AxiosError data_error_message data_detail message =>
      let message :=
        match data_error_message with
        | Some m => m
        | None =>
            match data_detail with
            | Some m => m
            | None => nullish message (lit "An unexpected error occurred")
            end
        end in
      Throw (Error message)
  | _ => Throw error
  end.

(** What a payload creator resolves with: a value, or the marker built
    by [rejectWithValue]. *)
Inductive PayloadResult (A : Type) :=
| Fulfill (a : A)
| RejectWithValue (v : option jsstring).
Arguments Fulfill {A} a.
Arguments RejectWithValue {A} v.

(** [createAsyncThunk]: the action creators of the three lifecycle
    actions and the payload creator. *)
Record AsyncThunk (Arg Returned : Type) := mkAsyncThunk {
  payloadCreator : Arg -> M (PayloadResult Returned);
  pending : Action;
  fulfilled : Returned -> Action;
  rejected : option jsstring -> Action
}.

(** ** components/NoteForm.tsx *)

Definition isValid (title content : jsstring) : bool :=
  Nat.ltb 0 (List.length (trim title))
  && Nat.ltb 0 (List.length (trim content)).

(** The [disabled] property of the submit button. *)
Definition submit_disabled (title content : jsstring) (creating : bool)
    : bool :=
  negb (isValid title content) || creating.

(** [handleSubmit] of a form rendered with the properties [onSubmit] and
    [creating]; [title] and [content] are the form's own state. *)
Definition NoteForm_handleSubmit (onSubmit : NoteCreate -> M unit)
    (creating : bool) : M unit :=
  w <- get_world ;;
  let title := form_title (noteForm w) in
  let content := form_content (noteForm w) in
  let isValid := isValid title content in
  if negb isValid || creating then ret tt
  else
    onSubmit {| nc_title := trim title; nc_content := trim content |} ;;
    setTitle [] ;;
    setContent [].

(** ** components/SearchBar.tsx *)

Definition SearchBar_handleSearch (onSearch : jsstring -> M unit) : M unit :=
  w <- get_world ;;
  onSearch (trim (searchInput w)).

Definition SearchBar_handleClear (onSearch : jsstring -> M unit) : M unit :=
  setInput [] ;;
  onSearch [].

Section Client.

Variable net : Transport.

(** [apiClient.get<Note[]>('/notes', { params })], resolving with
    [response.data]. *)
Definition apiClient_get (params : option jsstring) : M (list Note) :=
  w <- get_world ;;
  log_request (GET_notes params) ;;
  fun w' =>
    match http_get net (sent w) params with
    | inr data => (Ret data, w')
    | inl error => (responseInterceptor error, w')
    end.

(** [apiClient.post<Note>('/notes', data)], resolving with
    [response.data]. *)
Definition apiClient_post (data : NoteCreate) : M Note :=
  w <- get_world ;;
  log_request (POST_notes data) ;;
  fun w' =>
    match http_post net (sent w) data with
    | inr note => (Ret note, w')
    | inl error => (responseInterceptor error, w')
    end.

(** ** store/notesSlice.ts: the thunks *)

(** Running a thunk up to its final action: [pending] is dispatched,
    the payload creator runs, and its outcome becomes [fulfilled],
    [rejected] with the [rejectWithValue] payload, or [rejected] without
    payload when the payload creator threw. The thunk's promise never
    rejects. *)
Definition thunk_final {Arg Returned} (th : AsyncThunk Arg Returned)
    (arg : Arg) : M Action :=
  dispatch (pending th) ;;
  try_catch
    (r <- payloadCreator th arg ;;
     match r with
     | Fulfill a => ret (fulfilled th a)
     | RejectWithValue v => ret (rejected th v)
     end)
    (fun _ => ret (rejected th None)).

(** [await dispatch(thunk(arg))]: resolves with the final action once it
    has been reduced. *)
Definition dispatch_await {Arg Returned} (th : AsyncThunk Arg Returned)
    (arg : Arg) : M Action :=
  a <- thunk_final th arg ;;
  dispatch a ;;
  ret a.

(** [dispatch(thunk(arg))] without [await]: [pending] is reduced and the
    request goes out at once, the final action is reduced after the
    caller has finished. *)
Definition dispatch_detached {Arg Returned} (th : AsyncThunk Arg Returned)
    (arg : Arg) : M unit :=
  a <- thunk_final th arg ;;
  defer a.

(** The argument of [fetchNotes], of type [{ q?: string } | void]. *)
Record FetchArgs := mkFetchArgs { q : option jsstring }.

(** [args && 'q' in args && args.q ? { q: args.q } : undefined] *)
Definition fetch_params (args : option FetchArgs) : option jsstring :=
  match args with
  | Some {| q := Some s |} => if truthy s then Some s else None
  | _ => None
  end.

(** [error instanceof Error ? error.message : fallback] *)
Definition error_message (error : Thrown) (fallback : jsstring)
    : option jsstring :=
  match error with
  | AxiosError _ _ message => message
  | Error message => Some message
  | NonError => Some fallback
  end.

Definition fetchNotes : AsyncThunk (option FetchArgs) (list Note) :=
  {| payloadCreator := fun args =>
       try_catch
         (let params := fetch_params args in
          data <- apiClient_get params ;;
          ret (Fulfill data))
         (fun error =>
            let message :=
              error_message error (lit "Failed to fetch notes") in
            ret (RejectWithValue message));
     pending := FetchNotesPending;
     fulfilled := FetchNotesFulfilled;
     rejected := FetchNotesRejected |}.

Definition createNote : AsyncThunk NoteCreate Note :=
  {| payloadCreator := fun data =>
       try_catch
         (note <- apiClient_post data ;;
          ret (Fulfill note))
         (fun error =>
            let message :=
              error_message error (lit "Failed to create note") in
            ret (RejectWithValue message));
     pending := CreateNotePending;
     fulfilled := CreateNoteFulfilled;
     rejected := CreateNoteRejected |}.

(** [createNote.fulfilled.match(result)] *)
Definition createNote_fulfilled_match (result : Action) : bool :=
  match result with
  | CreateNoteFulfilled _ => true
  | _ => false
  end.

(** ** App.tsx *)

Definition App_handleSearch (query : jsstring) : M unit :=
  dispatch (SetQuery query) ;;
  dispatch_detached fetchNotes
    (if truthy query then Some {| q := Some query |} else None).

Definition App_handleCreate (data : NoteCreate) : M unit :=
  result <- dispatch_await createNote data ;;
  if createNote_fulfilled_match result
  then dispatch_detached fetchNotes None
  else ret tt.

(** The components as [App] renders them:
    [<SearchBar onSearch={handleSearch} loading={loading} />] and
    [<NoteForm onSubmit={handleCreate} creating={creating} />]. *)
Definition App_search : M unit :=
  SearchBar_handleSearch App_handleSearch.

Definition App_clear : M unit :=
  SearchBar_handleClear App_handleSearch.

Definition App_submit : M unit :=
  w <- get_world ;;
  NoteForm_handleSubmit App_handleCreate (creating (store w)).

Definition App_submit_disabled (w : World) : bool :=
  submit_disabled (form_title (noteForm w)) (form_content (noteForm w))
    (creating (store w)).

(** ** The event loop *)

(** Once a handler has run, the final actions of the thunks it did not
    await are reduced, in the order the thunks were started. *)
Definition settle (w : World) : World :=
  {| store := fold_left notesReducer (inflight w) (store w);
     noteForm := noteForm w; searchInput := searchInput w;
     sent := sent w;
     dispatched := dispatched w ++ inflight w;
     inflight := [] |}.

Definition run_event (handler : M unit) (w : World) : Result unit * World :=
  let (r, w') := handler w in (r, settle w').

End Client.

(** ** components/NoteCard.tsx and components/NoteList.tsx *)

(** The preview of a card:
    [content.length > 150 ? `${content.slice(0, 150)}...` : content]. *)
Definition NoteCard_preview (note : Note) : jsstring :=
  if Nat.ltb 150 (List.length (content note))
  then firstn 150 (content note) ++ lit "..."
  else content note.

(** What [NoteList] puts on the screen: the spinner, the error alert with
    its text, the line shown for an empty list, and one card per note. *)
Inductive Element :=
| CircularProgress
| Alert (children : jsstring)
| Typography (children : jsstring)
| NoteCard (note : Note).

(** The render function of [NoteList], on the slice it selects from. *)
Definition NoteList_render (state : NotesState) : list Element :=
  let notes := items state in
  let loading := loading state in
  let error := error state in
  let query := query state in
  if loading then [CircularProgress]
  else
    match error with
    | Some e => if truthy e then [Alert e] else []
    | None => []
    end
    ++ (if negb loading && Nat.eqb (List.length notes) 0
        then [Typography
                (if truthy query
                 then lit "No notes match your search."
                 else lit "No notes yet. Create one above!")]
        else [])
    ++ map NoteCard notes.


(** ** Views on action traces *)

Definition is_SetQuery (a : Action) : bool :=
  match a with
  | SetQuery _ => true
  | _ => false
  end.

Definition is_FetchNotesFulfilled (a : Action) : bool :=
  match a with
  | FetchNotesFulfilled _ => true
  | _ => false
  end.

(** The notes carried by the [createNote.fulfilled] actions of a trace,
    in order. *)
Definition created_notes (l : list Action) : list Note :=
  flat_map (fun a => match a with
                     | CreateNoteFulfilled n => [n]
                     | _ => []
                     end) l.

Definition is_Alert (e : Element) : bool :=
  match e with
  | Alert _ => true
  | _ => false
  end.

Definition is_NoteCard (e : Element) : bool :=
  match e with
  | NoteCard _ => true
  | _ => false
  end.

(** The [params.q] that [handleSearch] ends up sending for a query. *)
Definition search_q (query : jsstring) : option jsstring :=
  if truthy query then Some query else None.

(** The message the user gets to see for each failure, read along the
    interceptor and the [catch] block of a thunk. *)
Definition surfaced_message (e : Thrown) (fallback : jsstring) : jsstring :=
  match e with
  | AxiosError (Some m) _ _ => m
  | AxiosError None (Some d) _ => d
  | AxiosError None None (Some m) => m
  | AxiosError None None None => lit "An unexpected error occurred"
  | Error m => m
  | NonError => fallback
  end.

(** ** Auxiliary definitions for the statements *)

(** A string made of white space only (the empty string included). *)
Definition blank (s : jsstring) : bool := forallb isWhiteSpace s.

(** The value the response interceptor rejects with. *)
Definition rejected_with (error : Thrown) : Thrown :=
  match @responseInterceptor unit error with
  | Throw e => e
  | Ret _ => error
  end.

(** The world once a thunk has dispatched [pending] and sent request [r]. *)
Definition started (p : Action) (r : Request) (w : World) : World :=
  {| store := notesReducer (store w) p; noteForm := noteForm w;
     searchInput := searchInput w; sent := sent w ++ [r];
     dispatched := dispatched w ++ [p]; inflight := inflight w |}.

(** The world once action [a] has been reduced. *)
Definition reduced (a : Action) (w : World) : World :=
  {| store := notesReducer (store w) a; noteForm := noteForm w;
     searchInput := searchInput w; sent := sent w;
     dispatched := dispatched w ++ [a]; inflight := inflight w |}.

(** The final action of [fetchNotes] for each outcome of the transport. *)
Definition fetch_outcome (r : Thrown + list Note) : Action :=
  match r with
  | inr data => FetchNotesFulfilled data
  | inl e =>
      FetchNotesRejected
        (error_message (rejected_with e) (lit "Failed to fetch notes"))
  end.

(** The final action of [createNote] for each outcome of the transport. *)
Definition create_outcome (r : Thrown + Note) : Action :=
  match r with
  | inr note => CreateNoteFulfilled note
  | inl e =>
      CreateNoteRejected
        (error_message (rejected_with e) (lit "Failed to create note"))
  end.

(** The world once both fields of the form have been cleared. *)
Definition form_reset (w : World) : World :=
  {| store := store w;
     noteForm := {| form_title := []; form_content := [] |};
     searchInput := searchInput w; sent := sent w;
     dispatched := dispatched w; inflight := inflight w |}.

(** The note the form would submit: both fields trimmed. *)
Definition form_data (w : World) : NoteCreate :=
  {| nc_title := trim (form_title (noteForm w));
     nc_content := trim (form_content (noteForm w)) |}.

(** ** Concrete notes, servers and worlds used in the examples *)

Definition python_guide : Note :=
  {| id := lit "n1"; title := lit "Python Guide";
     content := lit "Learn Python";
     created_at := lit "2024-01-01T00:00:00Z" |}.

Definition rust_guide : Note :=
  {| id := lit "n2"; title := lit "Rust Guide";
     content := lit "Learn Rust";
     created_at := lit "2024-01-02T00:00:00Z" |}.

(** The body of the request that creates [rust_guide]. *)
Definition rust_draft : NoteCreate :=
  {| nc_title := lit "Rust Guide"; nc_content := lit "Learn Rust" |}.

(** A server that accepts every note and lists [python_guide]. *)
Definition server_ok : Transport :=
  {| http_get := fun _ _ => inr [python_guide];
     http_post := fun _ data =>
       inr {| id := lit "n2"; title := nc_title data;
              content := nc_content data;
              created_at := lit "2024-01-02T00:00:00Z" |} |}.

(** An unreachable server: axios fails with [Network Error] and there is
    no response. *)
Definition server_down : Transport :=
  {| http_get := fun _ _ =>
       inl (AxiosError None None (Some (lit "Network Error")));
     http_post := fun _ _ =>
       inl (AxiosError None None (Some (lit "Network Error"))) |}.

(** A server that refuses with status 422 and the body
    [{ error: { message: '' } }]. *)
Definition server_mute : Transport :=
  {| http_get := fun _ _ =>
       inl (AxiosError (Some []) None
              (Some (lit "Request failed with status code 422")));
     http_post := fun _ _ =>
       inl (AxiosError (Some []) None
              (Some (lit "Request failed with status code 422"))) |}.

(** A server that accepts every note but answers every listing with
    status 500 and the body [{ detail: 'Internal Server Error' }]. *)
Definition server_write_only : Transport :=
  {| http_get := fun _ _ =>
       inl (AxiosError None (Some (lit "Internal Server Error"))
              (Some (lit "Request failed with status code 500")));
     http_post := http_post server_ok |}.

(** The search [python] is active and shows one note; the form holds a
    new note with stray spaces around its title. *)
Definition world_python : World :=
  {| store := {| items := [python_guide]; loading := false;
                 creating := false; error := None;
                 query := lit "python" |};
     noteForm := {| form_title := lit "  Rust Guide ";
                    form_content := lit "Learn Rust" |};
     searchInput := lit "python";
     sent := []; dispatched := []; inflight := [] |}.

(** The search box holds a space, a tab and a space. *)
Definition world_blank_search : World :=
  {| store := store world_python; noteForm := noteForm world_python;
     searchInput := [32; 9; 32]%N;
     sent := []; dispatched := []; inflight := [] |}.

(** The form has a title but only spaces as content. *)
Definition world_blank_content : World :=
  {| store := store world_python;
     noteForm := {| form_title := lit "Hello"; form_content := lit "   " |};
     searchInput := [];
     sent := []; dispatched := []; inflight := [] |}.

(** ** White space and [trim] *)

Lemma trimStart_split (s : jsstring) :
  exists p, s = p ++ trimStart s /\ blank p = true.
Proof.
  induction s as [|c r [p [Hr Hp]]]; simpl.
  - exists []. split; reflexivity.
  - destruct (isWhiteSpace c) eqn:Hc.
    + exists (c :: p). simpl. rewrite Hc, Hp. split; [f_equal; exact Hr | reflexivity].
    + exists []. split; reflexivity.
Qed.

Lemma trimStart_head (s : jsstring) :
  match trimStart s with
  | [] => True
  | c :: _ => isWhiteSpace c = false
  end.
Proof.
  induction s as [|c r IH]; simpl; [exact I|].
  destruct (isWhiteSpace c) eqn:Hc; [exact IH | exact Hc].
Qed.

Lemma trimStart_blank (s : jsstring) : blank s = true -> trimStart s = [].
Proof.
  induction s as [|c r IH]; simpl; [reflexivity|].
  intros H. apply andb_true_iff in H as [Hc Hr].
  rewrite Hc. exact (IH Hr).
Qed.

Lemma blank_app (s t : jsstring) : blank (s ++ t) = blank s && blank t.
Proof. unfold blank. apply forallb_app. Qed.

Lemma blank_rev (s : jsstring) : blank (rev s) = blank s.
Proof.
  induction s as [|c r IH]; simpl; [reflexivity|].
  rewrite blank_app, IH. simpl. rewrite andb_true_r. apply andb_comm.
Qed.

Lemma trimStart_empty_blank (s : jsstring) : trimStart s = [] -> blank s = true.
Proof.
  intros H. destruct (trimStart_split s) as [p [Hs Hp]].
  rewrite H, app_nil_r in Hs. subst p. exact Hp.
Qed.

Lemma trim_blank (s : jsstring) : blank s = true -> trim s = [].
Proof.
  intros H. unfold trim, trimEnd. rewrite (trimStart_blank s H). reflexivity.
Qed.

Lemma trim_empty_blank (s : jsstring) : trim s = [] -> blank s = true.
Proof.
  unfold trim, trimEnd. intros H.
  assert (Hr : trimStart (rev (trimStart s)) = []).
  { apply (f_equal (@rev N)) in H. rewrite rev_involutive in H. exact H. }
  apply trimStart_empty_blank in Hr. rewrite blank_rev in Hr.
  pose proof (trimStart_head s) as Hh.
  destruct (trimStart s) as [|c t] eqn:Ht.
  - apply trimStart_empty_blank. exact Ht.
  - simpl in Hr. rewrite Hh in Hr. discriminate.
Qed.

Lemma trim_empty_iff_blank (s : jsstring) : trim s = [] <-> blank s = true.
Proof. split; [apply trim_empty_blank | apply trim_blank]. Qed.

Lemma trim_no_outer_whitespace (s : jsstring) :
  no_outer_whitespace (trim s) = true.
Proof.
  unfold no_outer_whitespace, trim, trimEnd.
  pose proof (trimStart_head s) as Hs.
  set (t := trimStart s) in *.
  pose proof (trimStart_head (rev t)) as Hu.
  destruct (trimStart_split (rev t)) as [p [Hsplit _]].
  set (u := trimStart (rev t)) in *.
  rewrite rev_involutive.
  apply andb_true_iff. split.
  - assert (Ht : t = rev u ++ rev p).
    { rewrite <- (rev_involutive t), Hsplit. apply rev_app_distr. }
    destruct (rev u) as [|c v] eqn:Hv; [reflexivity|].
    rewrite Ht in Hs. simpl in Hs. rewrite Hs. reflexivity.
  - destruct u as [|c v]; [reflexivity|]. rewrite Hu. reflexivity.
Qed.

Lemma isValid_false_iff (t c : jsstring) :
  isValid t c = false <-> trim t = [] \/ trim c = [].
Proof.
  unfold isValid.
  destruct (trim t) as [|a t'], (trim c) as [|b c']; simpl; split;
    intros H; auto; try discriminate; destruct H; discriminate.
Qed.

Lemma isValid_true_iff (t c : jsstring) :
  isValid t c = true <-> trim t <> [] /\ trim c <> [].
Proof.
  unfold isValid.
  destruct (trim t) as [|a t'], (trim c) as [|b c']; simpl; split;
    intros H; try discriminate; try (destruct H; congruence);
    split; discriminate.
Qed.

(** ** The interceptor and the thunks, step by step *)

Lemma responseInterceptor_rejects (A : Type) (e : Thrown) :
  @responseInterceptor A e = Throw (rejected_with e).
Proof. destruct e; reflexivity. Qed.

(** After the interceptor, the [catch] block of a thunk always finds a
    message: an axios error has been replaced by a plain [Error]. *)
Lemma error_message_rejected_with (e : Thrown) (fallback : jsstring) :
  exists msg, error_message (rejected_with e) fallback = Some msg.
Proof.
  destruct e as [dm dd m| m |]; simpl; eauto.
Qed.

Lemma thunk_final_fetchNotes (net : Transport) (args : option FetchArgs)
    (w : World) :
  thunk_final (fetchNotes net) args w =
  (Ret (fetch_outcome (http_get net (sent w) (fetch_params args))),
   started FetchNotesPending (GET_notes (fetch_params args)) w).
Proof.
  unfold thunk_final, fetchNotes, apiClient_get, bind, try_catch, ret,
    get_world, dispatch, log_request, started; simpl.
  destruct (http_get net (sent w) (fetch_params args)) as [e|data]; simpl.
  - rewrite responseInterceptor_rejects. reflexivity.
  - reflexivity.
Qed.

Lemma thunk_final_createNote (net : Transport) (data : NoteCreate)
    (w : World) :
  thunk_final (createNote net) data w =
  (Ret (create_outcome (http_post net (sent w) data)),
   started CreateNotePending (POST_notes data) w).
Proof.
  unfold thunk_final, createNote, apiClient_post, bind, try_catch, ret,
    get_world, dispatch, log_request, started; simpl.
  destruct (http_post net (sent w) data) as [e|note]; simpl.
  - rewrite responseInterceptor_rejects. reflexivity.
  - reflexivity.
Qed.

Lemma dispatch_await_fetchNotes (net : Transport) (args : option FetchArgs)
    (w : World) :
  let a := fetch_outcome (http_get net (sent w) (fetch_params args)) in
  dispatch_await (fetchNotes net) args w =
  (Ret a, reduced a (started FetchNotesPending (GET_notes (fetch_params args)) w)).
Proof.
  unfold dispatch_await, bind at 1. rewrite thunk_final_fetchNotes. reflexivity.
Qed.

Lemma dispatch_await_createNote (net : Transport) (data : NoteCreate)
    (w : World) :
  let a := create_outcome (http_post net (sent w) data) in
  dispatch_await (createNote net) data w =
  (Ret a, reduced a (started CreateNotePending (POST_notes data) w)).
Proof.
  unfold dispatch_await, bind at 1. rewrite thunk_final_createNote. reflexivity.
Qed.

Lemma dispatch_detached_fetchNotes (net : Transport)
    (args : option FetchArgs) (w : World) :
  dispatch_detached (fetchNotes net) args w =
  defer (fetch_outcome (http_get net (sent w) (fetch_params args)))
    (started FetchNotesPending (GET_notes (fetch_params args)) w).
Proof.
  unfold dispatch_detached, bind. rewrite thunk_final_fetchNotes. reflexivity.
Qed.

Lemma App_handleCreate_eq (net : Transport) (data : NoteCreate) (w : World) :
  let r := http_post net (sent w) data in
  let w1 := reduced (create_outcome r)
              (started CreateNotePending (POST_notes data) w) in
  App_handleCreate net data w =
  match r with
  | inr _ =>
      defer (fetch_outcome (http_get net (sent w1) None))
        (started FetchNotesPending (GET_notes None) w1)
  | inl _ => (Ret tt, w1)
  end.
Proof.
  intros r w1. unfold App_handleCreate, bind at 1.
  rewrite dispatch_await_createNote. fold r. fold w1.
  destruct r as [e|note]; simpl.
  - reflexivity.
  - rewrite dispatch_detached_fetchNotes. reflexivity.
Qed.

Lemma App_handleSearch_eq (net : Transport) (query : jsstring) (w : World) :
  let args := if truthy query then Some {| q := Some query |} else None in
  let w1 := reduced (SetQuery query) w in
  App_handleSearch net query w =
  defer (fetch_outcome (http_get net (sent w1) (fetch_params args)))
    (started FetchNotesPending (GET_notes (fetch_params args)) w1).
Proof.
  intros args w1. unfold App_handleSearch, bind at 1.
  change (dispatch (SetQuery query) w) with (Ret tt, w1).
  apply dispatch_detached_fetchNotes.
Qed.

(** [handleCreate] resolves whatever the network does. *)
Lemma App_handleCreate_resolves (net : Transport) (data : NoteCreate)
    (w : World) :
  exists w', App_handleCreate net data w = (Ret tt, w').
Proof.
  rewrite App_handleCreate_eq.
  destruct (http_post net (sent w) data); unfold defer; eauto.
Qed.

Lemma App_handleSearch_resolves (net : Transport) (query : jsstring)
    (w : World) :
  exists w', App_handleSearch net query w = (Ret tt, w').
Proof.
  rewrite App_handleSearch_eq. unfold defer. eauto.
Qed.

(** ** The reducers of the slice *)

(** C2. Fetch: [pending] sets [loading] and clears [error] in every state;
    [fulfilled] with the list [L] replaces [items] by [L], whatever the
    previous items, and clears [loading].  Through the thunk: when the
    server answers a fetch with [L], exactly these two actions are reduced
    and the store ends with [items = L] and [loading = false]. *)
Theorem fetch_pending_then_replaces_items :
  (forall s : NotesState,
      loading (notesReducer s FetchNotesPending) = true /\
      error (notesReducer s FetchNotesPending) = None) /\
  (forall (s : NotesState) (L : list Note),
      items (notesReducer s (FetchNotesFulfilled L)) = L /\
      loading (notesReducer s (FetchNotesFulfilled L)) = false) /\
  (forall (net : Transport) (w : World) (args : option FetchArgs)
          (L : list Note),
      http_get net (sent w) (fetch_params args) = inr L ->
      exists w',
        dispatch_await (fetchNotes net) args w
          = (Ret (FetchNotesFulfilled L), w') /\
        dispatched w'
          = dispatched w ++ [FetchNotesPending; FetchNotesFulfilled L] /\
        items (store w') = L /\
        loading (store w') = false).
Proof.
  split; [|split].
  - intros s. split; reflexivity.
  - intros s L. split; reflexivity.
  - intros net w args L Hok.
    rewrite dispatch_await_fetchNotes, Hok. simpl.
    eexists. split; [reflexivity|].
    simpl. rewrite <- app_assoc. repeat split; reflexivity.
Qed.

Lemma fetch_pending_then_replaces_items_witness :
  http_get server_ok (sent world_python) (fetch_params None)
    = inr [python_guide] /\
  exists w',
    dispatch_await (fetchNotes server_ok) None world_python
      = (Ret (FetchNotesFulfilled [python_guide]), w') /\
    dispatched w'
      = dispatched world_python
          ++ [FetchNotesPending; FetchNotesFulfilled [python_guide]] /\
    items (store w') = [python_guide] /\
    loading (store w') = false.
Proof.
  split; [reflexivity|].
  apply (proj2 (proj2 fetch_pending_then_replaces_items)).
  reflexivity.
Defined.

(** C3. Create: [pending] sets [creating] and clears [error] in every
    state; [fulfilled] with the note [n] appends [n] at the end of the
    previous items and clears [creating].  Through the thunk: when the
    server accepts the note and returns [n], the awaited create ends with
    [items] extended by [n] and [creating = false]. *)
Theorem create_pending_then_appends_note :
  (forall s : NotesState,
      creating (notesReducer s CreateNotePending) = true /\
      error (notesReducer s CreateNotePending) = None) /\
  (forall (s : NotesState) (n : Note),
      items (notesReducer s (CreateNoteFulfilled n)) = items s ++ [n] /\
      creating (notesReducer s (CreateNoteFulfilled n)) = false) /\
  (forall (net : Transport) (w : World) (data : NoteCreate) (n : Note),
      http_post net (sent w) data = inr n ->
      exists w',
        dispatch_await (createNote net) data w
          = (Ret (CreateNoteFulfilled n), w') /\
        dispatched w'
          = dispatched w ++ [CreateNotePending; CreateNoteFulfilled n] /\
        items (store w') = items (store w) ++ [n] /\
        creating (store w') = false).
Proof.
  split; [|split].
  - intros s. split; reflexivity.
  - intros s n. split; reflexivity.
  - intros net w data n Hok.
    rewrite dispatch_await_createNote, Hok. simpl.
    eexists. split; [reflexivity|].
    simpl. rewrite <- app_assoc. repeat split; reflexivity.
Qed.

Lemma create_pending_then_appends_note_witness :
  http_post server_ok (sent world_python) rust_draft = inr rust_guide /\
  exists w',
    dispatch_await (createNote server_ok) rust_draft world_python
      = (Ret (CreateNoteFulfilled rust_guide), w') /\
    dispatched w'
      = dispatched world_python
          ++ [CreateNotePending; CreateNoteFulfilled rust_guide] /\
    items (store w') = items (store world_python) ++ [rust_guide] /\
    creating (store w') = false.
Proof.
  split; [reflexivity|].
  apply (proj2 (proj2 create_pending_then_appends_note)).
  reflexivity.
Defined.

(** C7. [clearError] sets [error] to none and leaves [items], [loading],
    [creating] and [query] as they were. *)
Theorem clearError_only_clears_error (s : NotesState) :
  error (notesReducer s ClearError) = None /\
  items (notesReducer s ClearError) = items s /\
  loading (notesReducer s ClearError) = loading s /\
  creating (notesReducer s ClearError) = creating s /\
  query (notesReducer s ClearError) = query s.
Proof. repeat split; reflexivity. Qed.

(** C4, as stated, fails: a rejection whose message is the empty string
    leaves the empty string in [error].  The server answers the fetch with
    status 422 and the body [{ error: { message: '' } }]; the interceptor
    takes that message, the thunk rejects with it, and the reducer stores
    it: [loading] is false and [items] is unchanged, but [error] is not a
    non-empty message. *)
Lemma rejection_message_can_be_empty :
  loading (store (snd (dispatch_await (fetchNotes server_mute) None
                         world_python))) = false /\
  items (store (snd (dispatch_await (fetchNotes server_mute) None
                       world_python))) = items (store world_python) /\
  error (store (snd (dispatch_await (fetchNotes server_mute) None
                       world_python))) = Some [] /\
  ~ (exists m : jsstring,
        error (store (snd (dispatch_await (fetchNotes server_mute) None
                             world_python))) = Some m /\ m <> []).
Proof.
  repeat split; try reflexivity.
  intros [m [Hm Hne]]. vm_compute in Hm. injection Hm as <-. apply Hne. reflexivity.
Qed.

(** C4, amended. When a fetch or a create is rejected, in every state the
    in-flight flag of that operation becomes false, [items] is unchanged,
    and [error] becomes the message of the rejection: the payload when
    there is one, the fallback text of the operation otherwise.  That
    message is non-empty unless the payload is the empty string. *)
Theorem rejection_keeps_items_and_stores_message
    (s : NotesState) (payload : option jsstring) :
  (loading (notesReducer s (FetchNotesRejected payload)) = false /\
   items (notesReducer s (FetchNotesRejected payload)) = items s /\
   error (notesReducer s (FetchNotesRejected payload))
     = Some (nullish payload (lit "Failed to fetch notes"))) /\
  (creating (notesReducer s (CreateNoteRejected payload)) = false /\
   items (notesReducer s (CreateNoteRejected payload)) = items s /\
   error (notesReducer s (CreateNoteRejected payload))
     = Some (nullish payload (lit "Failed to create note"))) /\
  (payload = Some [] \/
   nullish payload (lit "Failed to fetch notes") <> [] /\
   nullish payload (lit "Failed to create note") <> []).
Proof.
  split; [|split].
  - repeat split; reflexivity.
  - repeat split; reflexivity.
  - destruct payload as [[|c m]|]; simpl.
    + left. reflexivity.
    + right. split; discriminate.
    + right. split; discriminate.
Qed.

(** ** The handlers of the components *)

Lemma App_handleCreate_sent (net : Transport) (data : NoteCreate) (w : World) :
  sent (snd (App_handleCreate net data w)) =
  sent w ++ POST_notes data ::
    match http_post net (sent w) data with
    | inr _ => [GET_notes None]
    | inl _ => []
    end.
Proof.
  rewrite App_handleCreate_eq.
  destruct (http_post net (sent w) data) as [e|n]; simpl.
  - reflexivity.
  - rewrite <- app_assoc. reflexivity.
Qed.

Lemma NoteForm_handleSubmit_invalid (onSubmit : NoteCreate -> M unit)
    (busy : bool) (w : World) :
  isValid (form_title (noteForm w)) (form_content (noteForm w)) = false ->
  NoteForm_handleSubmit onSubmit busy w = (Ret tt, w).
Proof.
  intros H. unfold NoteForm_handleSubmit, bind, get_world. rewrite H. reflexivity.
Qed.

Lemma NoteForm_handleSubmit_valid (onSubmit : NoteCreate -> M unit)
    (w : World) :
  isValid (form_title (noteForm w)) (form_content (noteForm w)) = true ->
  NoteForm_handleSubmit onSubmit false w =
  match onSubmit (form_data w) w with
  | (Ret _, w1) => (Ret tt, form_reset w1)
  | (Throw e, w1) => (Throw e, w1)
  end.
Proof.
  intros H. unfold NoteForm_handleSubmit, bind at 1. unfold get_world.
  rewrite H. simpl. unfold bind. fold (form_data w).
  destruct (onSubmit (form_data w) w) as [[u|e] w1]; reflexivity.
Qed.

(** C1, on the code: the search [python] is active and the form holds a
    valid note.  Submitting it against a server that accepts the note
    sends the POST and then a re-fetch without any [q] parameter, although
    the store's query still is [python]. *)
Theorem create_refetch_ignores_active_query :
  query (store world_python) = lit "python" /\
  sent (snd (run_event (App_submit server_ok) world_python))
    = [POST_notes rust_draft; GET_notes None] /\
  query (store (snd (run_event (App_submit server_ok) world_python)))
    = lit "python".
Proof. repeat split; reflexivity. Qed.

(** C5. A search whose trimmed input is empty sets the query to the empty
    string and issues a single [GET /notes] without [q]; so does the
    clear button, whatever the input was; and the thunk itself drops an
    empty [q].  The trimmed input is empty exactly when the input is made
    of white space only. *)
Theorem blank_search_fetches_all (net : Transport) (w : World)
    (Hblank : trim (searchInput w) = []) :
  (exists w',
      App_search net w = (Ret tt, w') /\
      sent w' = sent w ++ [GET_notes None] /\
      sent (settle w') = sent w ++ [GET_notes None] /\
      dispatched w' = dispatched w ++ [SetQuery []; FetchNotesPending] /\
      query (store w') = []) /\
  (exists w',
      App_clear net w = (Ret tt, w') /\
      sent w' = sent w ++ [GET_notes None] /\
      sent (settle w') = sent w ++ [GET_notes None] /\
      dispatched w' = dispatched w ++ [SetQuery []; FetchNotesPending] /\
      query (store w') = []) /\
  fetch_params (Some {| q := Some [] |}) = None /\
  (forall s : jsstring, trim s = [] <-> blank s = true).
Proof.
  split; [|split; [|split]].
  - unfold App_search, SearchBar_handleSearch, bind at 1.
    unfold get_world. rewrite Hblank, App_handleSearch_eq. simpl.
    eexists. split; [reflexivity|]. simpl.
    rewrite <- app_assoc. repeat split; reflexivity.
  - unfold App_clear, SearchBar_handleClear, bind at 1.
    unfold setInput. rewrite App_handleSearch_eq. simpl.
    eexists. split; [reflexivity|]. simpl.
    rewrite <- app_assoc. repeat split; reflexivity.
  - reflexivity.
  - exact trim_empty_iff_blank.
Qed.

Lemma blank_search_fetches_all_witness :
  trim (searchInput world_blank_search) = [] /\
  exists w',
    App_search server_ok world_blank_search = (Ret tt, w') /\
    sent w' = sent world_blank_search ++ [GET_notes None] /\
    sent (settle w') = sent world_blank_search ++ [GET_notes None] /\
    dispatched w'
      = dispatched world_blank_search ++ [SetQuery []; FetchNotesPending] /\
    query (store w') = [].
Proof.
  split; [reflexivity|].
  refine (proj1 (blank_search_fetches_all server_ok world_blank_search _)).
  reflexivity.
Defined.

(** C6. When the trimmed title or the trimmed content is empty, the
    submit button is disabled and the submit handler returns at once: the
    world is unchanged, so no action was dispatched and no request sent,
    and [onSubmit] is not called whatever it is bound to. *)
Theorem blank_form_is_rejected (net : Transport) (w : World)
    (Hblank : trim (form_title (noteForm w)) = [] \/
              trim (form_content (noteForm w)) = []) :
  App_submit_disabled w = true /\
  App_submit net w = (Ret tt, w) /\
  run_event (App_submit net) w = (Ret tt, settle w) /\
  (forall (onSubmit : NoteCreate -> M unit) (busy : bool),
      NoteForm_handleSubmit onSubmit busy w = (Ret tt, w)).
Proof.
  apply isValid_false_iff in Hblank.
  assert (Hsub : App_submit net w = (Ret tt, w)).
  { unfold App_submit, bind at 1. unfold get_world.
    apply NoteForm_handleSubmit_invalid. exact Hblank. }
  split; [|split; [|split]].
  - unfold App_submit_disabled, submit_disabled. rewrite Hblank. reflexivity.
  - exact Hsub.
  - unfold run_event. rewrite Hsub. reflexivity.
  - intros onSubmit busy. apply NoteForm_handleSubmit_invalid. exact Hblank.
Qed.

Lemma blank_form_is_rejected_witness :
  (trim (form_title (noteForm world_blank_content)) = [] \/
   trim (form_content (noteForm world_blank_content)) = []) /\
  App_submit_disabled world_blank_content = true /\
  App_submit server_ok world_blank_content = (Ret tt, world_blank_content).
Proof.
  assert (H : trim (form_title (noteForm world_blank_content)) = [] \/
              trim (form_content (noteForm world_blank_content)) = []).
  { right. reflexivity. }
  split; [exact H|].
  pose proof (blank_form_is_rejected server_ok world_blank_content H) as R.
  split; [exact (proj1 R) | exact (proj1 (proj2 R))].
Defined.

(** C8. No failure of the transport escapes.  Whatever the network does,
    the awaited thunks and the three handlers resolve, never reject; and
    when the request fails with any thrown value [e] (an axios error with
    or without response, another [Error], or a value that is no [Error]),
    the final action is [rejected] with a string payload, which the
    reducer stores in [error]. *)
Theorem async_failures_become_stored_errors (net : Transport) (w : World) :
  (forall args : option FetchArgs,
      exists a w', dispatch_await (fetchNotes net) args w = (Ret a, w')) /\
  (forall data : NoteCreate,
      exists a w', dispatch_await (createNote net) data w = (Ret a, w')) /\
  (exists w', App_search net w = (Ret tt, w')) /\
  (exists w', App_clear net w = (Ret tt, w')) /\
  (exists w', App_submit net w = (Ret tt, w')) /\
  (forall (args : option FetchArgs) (e : Thrown),
      http_get net (sent w) (fetch_params args) = inl e ->
      exists msg w',
        dispatch_await (fetchNotes net) args w
          = (Ret (FetchNotesRejected (Some msg)), w') /\
        error (store w') = Some msg) /\
  (forall (data : NoteCreate) (e : Thrown),
      http_post net (sent w) data = inl e ->
      exists msg w',
        dispatch_await (createNote net) data w
          = (Ret (CreateNoteRejected (Some msg)), w') /\
        error (store w') = Some msg).
Proof.
  repeat match goal with |- _ /\ _ => split end.
  - intros args. rewrite dispatch_await_fetchNotes. eauto.
  - intros data. rewrite dispatch_await_createNote. eauto.
  - unfold App_search, SearchBar_handleSearch, bind, get_world.
    apply App_handleSearch_resolves.
  - unfold App_clear, SearchBar_handleClear, bind, setInput.
    apply App_handleSearch_resolves.
  - unfold App_submit, bind at 1. unfold get_world.
    destruct (isValid (form_title (noteForm w)) (form_content (noteForm w)))
      eqn:Hv.
    + destruct (creating (store w)) eqn:Hc.
      * unfold NoteForm_handleSubmit, bind, get_world. rewrite Hv. simpl.
        exists w. reflexivity.
      * rewrite (NoteForm_handleSubmit_valid _ w Hv).
        destruct (App_handleCreate_resolves net (form_data w) w) as [w1 H1].
        rewrite H1. eauto.
    + rewrite NoteForm_handleSubmit_invalid by exact Hv. eauto.
  - intros args e He. rewrite dispatch_await_fetchNotes, He.
    unfold fetch_outcome.
    destruct (error_message_rejected_with e (lit "Failed to fetch notes"))
      as [msg Hmsg].
    rewrite Hmsg. exists msg. eexists. split; reflexivity.
  - intros data e He. rewrite dispatch_await_createNote, He.
    unfold create_outcome.
    destruct (error_message_rejected_with e (lit "Failed to create note"))
      as [msg Hmsg].
    rewrite Hmsg. exists msg. eexists. split; reflexivity.
Qed.

Lemma async_failures_become_stored_errors_witness :
  http_get server_down (sent world_python) (fetch_params None)
    = inl (AxiosError None None (Some (lit "Network Error"))) /\
  exists msg w',
    dispatch_await (fetchNotes server_down) None world_python
      = (Ret (FetchNotesRejected (Some msg)), w') /\
    error (store w') = Some msg.
Proof.
  split; [reflexivity|].
  pose proof (async_failures_become_stored_errors server_down world_python)
    as R.
  apply (proj1 (proj2 (proj2 (proj2 (proj2 (proj2 R))))) None
           (AxiosError None None (Some (lit "Network Error")))).
  reflexivity.
Defined.

Lemma App_submit_valid (net : Transport) (w : World) :
  isValid (form_title (noteForm w)) (form_content (noteForm w)) = true ->
  creating (store w) = false ->
  App_submit net w =
  (Ret tt, form_reset (snd (App_handleCreate net (form_data w) w))).
Proof.
  intros Hv Hc. unfold App_submit, bind at 1. unfold get_world.
  rewrite Hc, (NoteForm_handleSubmit_valid _ w Hv).
  destruct (App_handleCreate_resolves net (form_data w) w) as [w1 H1].
  rewrite H1. reflexivity.
Qed.

(** C9. A submission that passes validation (and is not blocked by a
    create in flight) sends exactly one POST, whose body is the trimmed
    title and the trimmed content; neither starts or ends with white
    space.  The only other request is the re-fetch after a success. *)
Theorem submit_sends_trimmed_note (net : Transport) (w : World)
    (Hvalid : isValid (form_title (noteForm w)) (form_content (noteForm w))
              = true)
    (Hidle : creating (store w) = false) :
  let data := {| nc_title := trim (form_title (noteForm w));
                 nc_content := trim (form_content (noteForm w)) |} in
  (exists w',
      App_submit net w = (Ret tt, w') /\
      sent w' =
        sent w ++ POST_notes data ::
          match http_post net (sent w) data with
          | inr _ => [GET_notes None]
          | inl _ => []
          end) /\
  (forall onSubmit : NoteCreate -> M unit,
      NoteForm_handleSubmit onSubmit false w =
      match onSubmit data w with
      | (Ret _, w1) => (Ret tt, form_reset w1)
      | (Throw e, w1) => (Throw e, w1)
      end) /\
  no_outer_whitespace (nc_title data) = true /\
  no_outer_whitespace (nc_content data) = true /\
  nc_title data <> [] /\
  nc_content data <> [].
Proof.
  intros data. split; [|split; [|split; [|split]]].
  - rewrite (App_submit_valid net w Hvalid Hidle).
    eexists. split; [reflexivity|].
    simpl. apply App_handleCreate_sent.
  - intros onSubmit. apply NoteForm_handleSubmit_valid. exact Hvalid.
  - apply trim_no_outer_whitespace.
  - apply trim_no_outer_whitespace.
  - apply isValid_true_iff in Hvalid. exact Hvalid.
Qed.

Lemma submit_sends_trimmed_note_witness :
  isValid (form_title (noteForm world_python))
    (form_content (noteForm world_python)) = true /\
  creating (store world_python) = false /\
  exists w',
    App_submit server_ok world_python = (Ret tt, w') /\
    sent w' = [POST_notes rust_draft; GET_notes None].
Proof.
  split; [reflexivity|]. split; [reflexivity|].
  refine (proj1 (submit_sends_trimmed_note server_ok world_python _ _));
    reflexivity.
Defined.

(** C10. After a submission that passes validation, both fields of the
    form are empty, whether the create was fulfilled or rejected: the
    handler clears them once [onSubmit] has resolved, and [handleCreate]
    resolves in both cases. *)
Theorem valid_submit_resets_form (net : Transport) (w : World)
    (Hvalid : isValid (form_title (noteForm w)) (form_content (noteForm w))
              = true)
    (Hidle : creating (store w) = false) :
  (exists w',
      run_event (App_submit net) w = (Ret tt, w') /\
      noteForm w' = {| form_title := []; form_content := [] |} /\
      exists final,
        final = create_outcome
                  (http_post net (sent w)
                     {| nc_title := trim (form_title (noteForm w));
                        nc_content := trim (form_content (noteForm w)) |}) /\
        In final (dispatched w')) /\
  (forall (data : NoteCreate) (w0 : World),
      exists w1, App_handleCreate net data w0 = (Ret tt, w1)) /\
  (forall (onSubmit : NoteCreate -> M unit) (w1 : World),
      onSubmit
        {| nc_title := trim (form_title (noteForm w));
           nc_content := trim (form_content (noteForm w)) |} w
        = (Ret tt, w1) ->
      NoteForm_handleSubmit onSubmit false w = (Ret tt, form_reset w1)).
Proof.
  split; [|split].
  - unfold run_event. rewrite (App_submit_valid net w Hvalid Hidle).
    eexists. split; [reflexivity|]. split; [reflexivity|].
    eexists. split; [reflexivity|].
    unfold form_data. rewrite App_handleCreate_eq. simpl.
    destruct (http_post net (sent w) _) as [e|n]; simpl;
      rewrite !in_app_iff; simpl; auto 10.
  - intros data w0. apply App_handleCreate_resolves.
  - intros onSubmit w1 H.
    rewrite (NoteForm_handleSubmit_valid _ w Hvalid).
    unfold form_data. rewrite H. reflexivity.
Qed.

Lemma valid_submit_resets_form_witness :
  (isValid (form_title (noteForm world_python))
     (form_content (noteForm world_python)) = true /\
   creating (store world_python) = false) /\
  (exists w',
      run_event (App_submit server_ok) world_python = (Ret tt, w') /\
      noteForm w' = {| form_title := []; form_content := [] |} /\
      In (CreateNoteFulfilled rust_guide) (dispatched w')) /\
  (exists w',
      run_event (App_submit server_down) world_python = (Ret tt, w') /\
      noteForm w' = {| form_title := []; form_content := [] |} /\
      In (CreateNoteRejected (Some (lit "Network Error"))) (dispatched w')).
Proof.
  split; [split; reflexivity|].
  split.
  - destruct (proj1 (valid_submit_resets_form server_ok world_python
                       eq_refl eq_refl))
      as [w' [Hrun [Hform [final [Hfinal Hin]]]]].
    exists w'. subst final. repeat split; assumption.
  - destruct (proj1 (valid_submit_resets_form server_down world_python
                       eq_refl eq_refl))
      as [w' [Hrun [Hform [final [Hfinal Hin]]]]].
    exists w'. subst final. repeat split; assumption.
Defined.

(** ** Further properties: cards and the list view *)

Lemma firstn_app_exact (A : Type) (n : nat) (l t : list A) :
  n <= List.length l -> firstn n (firstn n l ++ t) = firstn n l.
Proof.
  intros H. rewrite firstn_app, firstn_firstn, length_firstn.
  rewrite !Nat.min_l by lia. rewrite Nat.sub_diag. simpl.
  apply app_nil_r.
Qed.

(** X1. The preview of a card is the content itself when it has at most
    150 code units, and its first 150 code units followed by three dots
    otherwise; it never exceeds 153 code units and always agrees with the
    content on the first 150. *)
Theorem NoteCard_preview_bounded (note : Note) :
  List.length (NoteCard_preview note) <= 153 /\
  firstn 150 (NoteCard_preview note) = firstn 150 (content note) /\
  (List.length (content note) <= 150 /\
   NoteCard_preview note = content note
   \/
   150 < List.length (content note) /\
   NoteCard_preview note = firstn 150 (content note) ++ lit "...").
Proof.
  unfold NoteCard_preview.
  destruct (Nat.ltb 150 (List.length (content note))) eqn:Hlen.
  - apply Nat.ltb_lt in Hlen.
    split; [|split].
    + rewrite length_app, length_firstn.
      change (List.length (lit "...")) with 3. lia.
    + apply firstn_app_exact. lia.
    + right. split; [exact Hlen | reflexivity].
  - apply Nat.ltb_ge in Hlen.
    split; [|split].
    + lia.
    + reflexivity.
    + left. split; [exact Hlen | reflexivity].
Qed.

Lemma filter_is_NoteCard_cards (l : list Note) :
  filter is_NoteCard (map NoteCard l) = map NoteCard l.
Proof. induction l as [|n l IH]; simpl; [reflexivity | rewrite IH; reflexivity]. Qed.

Lemma filter_is_Alert_cards (l : list Note) :
  filter is_Alert (map NoteCard l) = [].
Proof. induction l as [|n l IH]; simpl; [reflexivity | exact IH]. Qed.

(** X2. While a fetch is in flight the list shows the spinner and nothing
    else (no alert, no card); otherwise it shows one card per note of
    [items], in the order of [items], and no spinner. *)
Theorem NoteList_render_spinner_or_cards (state : NotesState) :
  (loading state = true /\ NoteList_render state = [CircularProgress])
  \/
  (loading state = false /\
   filter is_NoteCard (NoteList_render state) = map NoteCard (items state) /\
   ~ In CircularProgress (NoteList_render state)).
Proof.
  unfold NoteList_render.
  destruct (loading state) eqn:Hl.
  - left. split; reflexivity.
  - right. split; [reflexivity|]. split.
    + rewrite !filter_app, filter_is_NoteCard_cards.
      destruct (error state) as [e|]; [destruct (truthy e)|];
        destruct (items state); reflexivity.
    + rewrite !in_app_iff, in_map_iff.
      intros [H|[H|[n [H _]]]].
      * destruct (error state) as [e|]; [destruct (truthy e)|]; simpl in H;
          try destruct H as [H|H]; try discriminate; try contradiction.
      * destruct (negb false && Nat.eqb (List.length (items state)) 0);
          simpl in H; try destruct H as [H|H]; try discriminate;
          try contradiction.
      * discriminate.
Qed.

(** X3. The error alert is on the screen exactly when no fetch is in
    flight and [error] holds a non-empty string: an error whose message
    is the empty string is stored but never displayed. *)
Theorem NoteList_alert_iff (state : NotesState) (m : jsstring) :
  In (Alert m) (NoteList_render state) <->
  loading state = false /\ error state = Some m /\ m <> [].
Proof.
  unfold NoteList_render.
  destruct (loading state) eqn:Hl.
  - split.
    + intros [H|[]]. discriminate.
    + intros [H _]. discriminate.
  - rewrite !in_app_iff, in_map_iff. split.
    + intros [H|[H|[n [H _]]]].
      * destruct (error state) as [e|]; [|contradiction].
        destruct e as [|c e]; simpl in H; [contradiction|].
        destruct H as [H|[]]. injection H as <-.
        repeat split. discriminate.
      * destruct (negb false && Nat.eqb (List.length (items state)) 0);
          simpl in H; try destruct H as [H|H]; try discriminate;
          contradiction.
      * discriminate.
    + intros [_ [He Hm]]. left. rewrite He.
      destruct m as [|c m]; [contradiction|]. simpl. left. reflexivity.
Qed.

(** X4. The line for an empty list is shown exactly when no fetch is in
    flight and [items] is empty; its text says that nothing matches the
    search when a query is active and invites to create a note when the
    query is empty. *)
Theorem NoteList_empty_text_iff (state : NotesState) (t : jsstring) :
  In (Typography t) (NoteList_render state) <->
  loading state = false /\ items state = [] /\
  t = (if truthy (query state)
       then lit "No notes match your search."
       else lit "No notes yet. Create one above!").
Proof.
  unfold NoteList_render.
  destruct (loading state) eqn:Hl.
  - split.
    + intros [H|[]]. discriminate.
    + intros [H _]. discriminate.
  - rewrite !in_app_iff, in_map_iff. split.
    + intros [H|[H|[n [H _]]]].
      * destruct (error state) as [e|]; [destruct (truthy e)|]; simpl in H;
          try destruct H as [H|H]; try discriminate; contradiction.
      * destruct (items state) as [|n l]; simpl in H; [|contradiction].
        destruct H as [H|[]]. injection H as <-.
        repeat split.
      * discriminate.
    + intros [_ [Hi Ht]]. right. left. rewrite Hi. simpl. left.
      rewrite Ht. reflexivity.
Qed.

(** ** Further properties: the reducer along a trace of actions *)

(** X5. Only [setQuery] changes the query: along any trace of actions
    without a [setQuery], the query stays what it was. *)
Theorem query_changes_only_by_setQuery (l : list Action) (s : NotesState)
    (Hno : forallb (fun a => negb (is_SetQuery a)) l = true) :
  query (fold_left notesReducer l s) = query s.
Proof.
  revert s Hno. induction l as [|a l IH]; intros s Hno; simpl in *.
  - reflexivity.
  - apply andb_true_iff in Hno as [Ha Hl].
    rewrite (IH _ Hl). destruct a; simpl in *; try reflexivity; discriminate.
Qed.

Lemma query_changes_only_by_setQuery_witness :
  forallb (fun a => negb (is_SetQuery a))
    [CreateNotePending; CreateNoteFulfilled rust_guide; FetchNotesPending;
     FetchNotesRejected None; ClearError] = true /\
  query (fold_left notesReducer
           [CreateNotePending; CreateNoteFulfilled rust_guide;
            FetchNotesPending; FetchNotesRejected None; ClearError]
           (store world_python))
    = query (store world_python).
Proof.
  split; [reflexivity|].
  apply query_changes_only_by_setQuery. reflexivity.
Defined.

Lemma fold_items_created (l : list Action) (s : NotesState) :
  forallb (fun a => negb (is_FetchNotesFulfilled a)) l = true ->
  items (fold_left notesReducer l s) = items s ++ created_notes l.
Proof.
  revert s. induction l as [|a l IH]; intros s Hno; simpl in *.
  - symmetry. apply app_nil_r.
  - apply andb_true_iff in Hno as [Ha Hl].
    rewrite (IH _ Hl).
    destruct a; simpl in *; try reflexivity; try discriminate.
    rewrite <- app_assoc. reflexivity.
Qed.

(** X6. Only a fulfilled fetch removes or reorders notes: along any trace
    without [fetchNotes.fulfilled], the items are the previous items
    followed by the notes of the fulfilled creates, in the order of the
    trace; no other action touches the list. *)
Theorem items_grow_by_created_notes (l : list Action) (s : NotesState)
    (Hno : forallb (fun a => negb (is_FetchNotesFulfilled a)) l = true) :
  items (fold_left notesReducer l s) = items s ++ created_notes l.
Proof. apply fold_items_created. exact Hno. Qed.

Lemma items_grow_by_created_notes_witness :
  forallb (fun a => negb (is_FetchNotesFulfilled a))
    [CreateNotePending; CreateNoteFulfilled rust_guide; FetchNotesPending;
     FetchNotesRejected None; ClearError] = true /\
  items (fold_left notesReducer
           [CreateNotePending; CreateNoteFulfilled rust_guide;
            FetchNotesPending; FetchNotesRejected None; ClearError]
           (store world_python))
    = [python_guide; rust_guide].
Proof.
  split; [reflexivity|].
  apply (items_grow_by_created_notes
           [CreateNotePending; CreateNoteFulfilled rust_guide;
            FetchNotesPending; FetchNotesRejected None; ClearError]
           (store world_python)).
  reflexivity.
Defined.

(** X7. A fulfilled fetch makes the past irrelevant: whatever came before
    it in a trace, the items after the trace are the fetched list followed
    by the notes created after the fetch, as long as no later fetch is
    fulfilled. *)
Theorem items_after_last_fetch (before after : list Action)
    (L : list Note) (s : NotesState)
    (Hno : forallb (fun a => negb (is_FetchNotesFulfilled a)) after = true) :
  items (fold_left notesReducer (before ++ FetchNotesFulfilled L :: after) s)
  = L ++ created_notes after.
Proof.
  rewrite fold_left_app. simpl.
  rewrite (fold_items_created after _ Hno). reflexivity.
Qed.

Lemma items_after_last_fetch_witness :
  forallb (fun a => negb (is_FetchNotesFulfilled a))
    [CreateNotePending; CreateNoteFulfilled rust_guide] = true /\
  items (fold_left notesReducer
           ([FetchNotesPending; CreateNoteFulfilled python_guide]
              ++ FetchNotesFulfilled [] ::
              [CreateNotePending; CreateNoteFulfilled rust_guide])
           initialState)
    = [rust_guide].
Proof.
  split; [reflexivity|].
  apply (items_after_last_fetch
           [FetchNotesPending; CreateNoteFulfilled python_guide]
           [CreateNotePending; CreateNoteFulfilled rust_guide]
           [] initialState).
  reflexivity.
Defined.

(** ** Further properties: the interceptor and the thunks *)

(** X8. The response interceptor always rejects; what it rejects with is
    never an axios error, and a value that is no axios error passes
    through unchanged. *)
Theorem responseInterceptor_normalises (A : Type) (e : Thrown) :
  exists e',
    @responseInterceptor A e = Throw e' /\
    isAxiosError e' = false /\
    (isAxiosError e = true -> exists m, e' = Error m) /\
    (isAxiosError e = false -> e' = e).
Proof.
  destruct e as [dm dd m | m |]; simpl.
  - eexists. split; [reflexivity|]. split; [reflexivity|].
    split; [eauto | discriminate].
  - exists (Error m). repeat split; try reflexivity. discriminate.
  - exists NonError. repeat split; try reflexivity. discriminate.
Qed.

Lemma responseInterceptor_normalises_witness :
  exists e',
    @responseInterceptor unit
      (AxiosError None (Some (lit "Title must not be empty")) None)
      = Throw e' /\
    e' = Error (lit "Title must not be empty").
Proof.
  destruct (responseInterceptor_normalises unit
              (AxiosError None (Some (lit "Title must not be empty")) None))
    as [e' [He _]].
  exists e'. split; [exact He|].
  simpl in He. injection He as <-. reflexivity.
Defined.

Lemma error_message_surfaced (e : Thrown) (fallback : jsstring) :
  error_message (rejected_with e) fallback
  = Some (surfaced_message e fallback).
Proof.
  destruct e as [[dm|] [dd|] [m|] | m |]; reflexivity.
Qed.

(** X9. Which message a failed request leaves in [error]: the server's
    [error.message] when the response body has one, else its [detail],
    else the message of the axios error (for instance [Network Error]),
    else a fixed text; the message of any other [Error]; and the fallback
    of the operation only for a thrown value that is not an [Error]. *)
Theorem failed_request_surfaces_server_message
    (net : Transport) (w : World) :
  (forall (args : option FetchArgs) (e : Thrown),
      http_get net (sent w) (fetch_params args) = inl e ->
      error (store (snd (dispatch_await (fetchNotes net) args w)))
      = Some (surfaced_message e (lit "Failed to fetch notes"))) /\
  (forall (data : NoteCreate) (e : Thrown),
      http_post net (sent w) data = inl e ->
      error (store (snd (dispatch_await (createNote net) data w)))
      = Some (surfaced_message e (lit "Failed to create note"))).
Proof.
  split.
  - intros args e He. rewrite dispatch_await_fetchNotes, He.
    unfold fetch_outcome. rewrite error_message_surfaced. reflexivity.
  - intros data e He. rewrite dispatch_await_createNote, He.
    unfold create_outcome. rewrite error_message_surfaced. reflexivity.
Qed.

Lemma failed_request_surfaces_server_message_witness :
  http_post server_down (sent world_python) rust_draft
    = inl (AxiosError None None (Some (lit "Network Error"))) /\
  error (store (snd (dispatch_await (createNote server_down) rust_draft
                       world_python)))
    = Some (lit "Network Error").
Proof.
  split; [reflexivity|].
  apply (proj2 (failed_request_surfaces_server_message server_down
                  world_python) rust_draft
           (AxiosError None None (Some (lit "Network Error")))).
  reflexivity.
Defined.


(** ** Further properties: searching *)

Lemma fetch_params_search (query : jsstring) :
  fetch_params (if truthy query then Some {| q := Some query |} else None)
  = search_q query.
Proof. destruct query; reflexivity. Qed.

Lemma App_search_eq (net : Transport) (w : World) :
  let qq := trim (searchInput w) in
  App_search net w =
  defer (fetch_outcome (http_get net (sent w) (search_q qq)))
    (started FetchNotesPending (GET_notes (search_q qq))
       (reduced (SetQuery qq) w)).
Proof.
  intros qq. unfold App_search, SearchBar_handleSearch, bind at 1.
  unfold get_world. fold qq. rewrite App_handleSearch_eq.
  rewrite fetch_params_search. reflexivity.
Qed.

Lemma run_event_App_search (net : Transport) (w : World) :
  inflight w = [] ->
  let qq := trim (searchInput w) in
  let a := fetch_outcome (http_get net (sent w) (search_q qq)) in
  fst (run_event (App_search net) w) = Ret tt /\
  store (snd (run_event (App_search net) w))
    = notesReducer
        (notesReducer (notesReducer (store w) (SetQuery qq))
           FetchNotesPending) a /\
  sent (snd (run_event (App_search net) w))
    = sent w ++ [GET_notes (search_q qq)].
Proof.
  intros Hs qq a. unfold run_event. rewrite App_search_eq.
  fold qq. fold a. unfold defer, settle. simpl. rewrite Hs.
  repeat split; reflexivity.
Qed.

(** X11. A search whose input is not blank stores the trimmed input as
    the query and sends a single [GET /notes] whose [q] is the trimmed
    input: non-empty, and without white space at either end. *)
Theorem search_sends_trimmed_query (net : Transport) (w : World)
    (Hinput : trim (searchInput w) <> []) :
  exists w',
    App_search net w = (Ret tt, w') /\
    sent w' = sent w ++ [GET_notes (Some (trim (searchInput w)))] /\
    sent (settle w') = sent w ++ [GET_notes (Some (trim (searchInput w)))] /\
    query (store w') = trim (searchInput w) /\
    no_outer_whitespace (trim (searchInput w)) = true.
Proof.
  rewrite App_search_eq. unfold defer, search_q.
  destruct (trim (searchInput w)) as [|c r] eqn:Ht; [contradiction|].
  eexists. split; [reflexivity|]. simpl.
  repeat split; try reflexivity.
  rewrite <- Ht. apply trim_no_outer_whitespace.
Qed.

Lemma search_sends_trimmed_query_witness :
  trim (searchInput world_python) <> [] /\
  exists w',
    App_search server_ok world_python = (Ret tt, w') /\
    sent w' = [GET_notes (Some (lit "python"))] /\
    query (store w') = lit "python".
Proof.
  assert (H : trim (searchInput world_python) <> []) by discriminate.
  split; [exact H|].
  destruct (search_sends_trimmed_query server_ok world_python H)
    as [w' [Hrun [Hsent [_ [Hq _]]]]].
  exists w'. repeat split; assumption.
Defined.

(** X12. Once a search has been answered with the list [L], the store
    holds [L] as its items, the trimmed input as its query, no error and
    no fetch in flight; whatever error was shown before is gone. *)
Theorem search_success_replaces_items (net : Transport) (w : World)
    (L : list Note)
    (Hsettled : inflight w = [])
    (Hok : http_get net (sent w) (search_q (trim (searchInput w)))
           = inr L) :
  fst (run_event (App_search net) w) = Ret tt /\
  store (snd (run_event (App_search net) w))
  = {| items := L; loading := false; creating := creating (store w);
       error := None; query := trim (searchInput w) |}.
Proof.
  destruct (run_event_App_search net w Hsettled) as [Hr [Hst _]].
  split; [exact Hr|]. rewrite Hst, Hok. reflexivity.
Qed.

Lemma search_success_replaces_items_witness :
  inflight world_python = [] /\
  http_get server_ok (sent world_python)
    (search_q (trim (searchInput world_python))) = inr [python_guide] /\
  store (snd (run_event (App_search server_ok) world_python))
  = {| items := [python_guide]; loading := false; creating := false;
       error := None; query := lit "python" |}.
Proof.
  split; [reflexivity|]. split; [reflexivity|].
  refine (proj2 (@search_success_replaces_items server_ok world_python
                   [python_guide] _ _)); reflexivity.
Defined.

(** X13. Once a search has failed, the store already holds the new query
    but still the old items: the list on the screen no longer belongs to
    the query in the store.  [error] holds the surfaced message and no
    fetch is in flight. *)
Theorem search_failure_keeps_items_under_new_query
    (net : Transport) (w : World) (e : Thrown)
    (Hsettled : inflight w = [])
    (Hfail : http_get net (sent w) (search_q (trim (searchInput w)))
             = inl e) :
  fst (run_event (App_search net) w) = Ret tt /\
  store (snd (run_event (App_search net) w))
  = {| items := items (store w); loading := false;
       creating := creating (store w);
       error := Some (surfaced_message e (lit "Failed to fetch notes"));
       query := trim (searchInput w) |}.
Proof.
  destruct (run_event_App_search net w Hsettled) as [Hr [Hst _]].
  split; [exact Hr|]. rewrite Hst, Hfail.
  unfold fetch_outcome. rewrite error_message_surfaced. reflexivity.
Qed.

Lemma search_failure_keeps_items_under_new_query_witness :
  inflight world_blank_search = [] /\
  http_get server_down (sent world_blank_search)
    (search_q (trim (searchInput world_blank_search)))
    = inl (AxiosError None None (Some (lit "Network Error"))) /\
  store (snd (run_event (App_search server_down) world_blank_search))
  = {| items := [python_guide]; loading := false; creating := false;
       error := Some (lit "Network Error"); query := [] |}.
Proof.
  split; [reflexivity|]. split; [reflexivity|].
  refine (proj2 (@search_failure_keeps_items_under_new_query server_down
                   world_blank_search
                   (AxiosError None None (Some (lit "Network Error")))
                   _ _)); reflexivity.
Defined.

(** X14. A failure whose surfaced message is the empty string is
    invisible: after such a failed search the list shows no alert at
    all, only the old cards or the line for an empty list. *)
Theorem empty_message_failure_shows_no_alert
    (net : Transport) (w : World) (e : Thrown)
    (Hsettled : inflight w = [])
    (Hfail : http_get net (sent w) (search_q (trim (searchInput w)))
             = inl e)
    (Hempty : surfaced_message e (lit "Failed to fetch notes") = []) :
  filter is_Alert
    (NoteList_render (store (snd (run_event (App_search net) w)))) = [] /\
  filter is_NoteCard
    (NoteList_render (store (snd (run_event (App_search net) w))))
  = map NoteCard (items (store w)).
Proof.
  destruct (run_event_App_search net w Hsettled) as [_ [Hst _]].
  rewrite Hst, Hfail. unfold fetch_outcome.
  rewrite error_message_surfaced, Hempty. unfold NoteList_render. simpl.
  rewrite !filter_app, filter_is_Alert_cards, filter_is_NoteCard_cards.
  destruct (items (store w)); split; reflexivity.
Qed.

Lemma empty_message_failure_shows_no_alert_witness :
  inflight world_python = [] /\
  http_get server_mute (sent world_python)
    (search_q (trim (searchInput world_python)))
    = inl (AxiosError (Some []) None
             (Some (lit "Request failed with status code 422"))) /\
  filter is_Alert
    (NoteList_render
       (store (snd (run_event (App_search server_mute) world_python))))
  = [].
Proof.
  split; [reflexivity|]. split; [reflexivity|].
  refine (proj1 (@empty_message_failure_shows_no_alert server_mute
                   world_python
                   (AxiosError (Some []) None
                      (Some (lit "Request failed with status code 422")))
                   _ _ _)); reflexivity.
Defined.

(** ** Further properties: submitting the form *)

(** X15. The submit button is enabled exactly when no create is in flight
    and both fields hold at least one character that is not white
    space. *)
Theorem submit_enabled_iff (w : World) :
  App_submit_disabled w = false <->
  creating (store w) = false /\
  blank (form_title (noteForm w)) = false /\
  blank (form_content (noteForm w)) = false.
Proof.
  unfold App_submit_disabled, submit_disabled.
  rewrite orb_false_iff, negb_false_iff, isValid_true_iff.
  rewrite !trim_empty_iff_blank, !not_true_iff_false.
  tauto.
Qed.

Lemma App_submit_busy (net : Transport) (w : World) :
  creating (store w) = true -> App_submit net w = (Ret tt, w).
Proof.
  intros H. unfold App_submit, bind at 1. unfold get_world.
  rewrite H. unfold NoteForm_handleSubmit, bind, get_world.
  rewrite orb_true_r. reflexivity.
Qed.

(** X16. While a create is in flight the form ignores a submission, even
    a valid one: the button is disabled and the handler leaves the world
    as it is.  In particular a second submission that arrives right after
    [createNote.pending] has been reduced sends nothing. *)
Theorem busy_form_ignores_submit (net : Transport) (w : World)
    (Hbusy : creating (store w) = true) :
  App_submit_disabled w = true /\
  App_submit net w = (Ret tt, w) /\
  (forall w0 : World,
      App_submit net (snd (dispatch CreateNotePending w0))
      = (Ret tt, snd (dispatch CreateNotePending w0))).
Proof.
  split; [|split].
  - unfold App_submit_disabled, submit_disabled. rewrite Hbusy.
    apply orb_true_r.
  - apply App_submit_busy. exact Hbusy.
  - intros w0. apply App_submit_busy. reflexivity.
Qed.

Lemma busy_form_ignores_submit_witness :
  creating (store (snd (dispatch CreateNotePending world_python))) = true /\
  App_submit server_ok (snd (dispatch CreateNotePending world_python))
  = (Ret tt, snd (dispatch CreateNotePending world_python)).
Proof.
  split; [reflexivity|].
  refine (proj1 (proj2 (busy_form_ignores_submit server_ok
                          (snd (dispatch CreateNotePending world_python))
                          _))).
  reflexivity.
Defined.

Lemma run_event_App_submit (net : Transport) (w : World) :
  inflight w = [] ->
  isValid (form_title (noteForm w)) (form_content (noteForm w)) = true ->
  creating (store w) = false ->
  let data := form_data w in
  let s1 := notesReducer (notesReducer (store w) CreateNotePending)
              (create_outcome (http_post net (sent w) data)) in
  fst (run_event (App_submit net) w) = Ret tt /\
  noteForm (snd (run_event (App_submit net) w))
    = {| form_title := []; form_content := [] |} /\
  match http_post net (sent w) data with
  | inl _ =>
      store (snd (run_event (App_submit net) w)) = s1 /\
      sent (snd (run_event (App_submit net) w))
        = sent w ++ [POST_notes data]
  | inr _ =>
      store (snd (run_event (App_submit net) w))
        = notesReducer (notesReducer s1 FetchNotesPending)
            (fetch_outcome
               (http_get net (sent w ++ [POST_notes data]) None)) /\
      sent (snd (run_event (App_submit net) w))
        = sent w ++ [POST_notes data; GET_notes None]
  end.
Proof.
  intros Hs Hv Hc data s1. unfold run_event.
  rewrite (App_submit_valid net w Hv Hc), App_handleCreate_eq.
  fold data. subst s1.
  destruct (http_post net (sent w) data) as [e|n]; simpl.
  - rewrite Hs. repeat split; reflexivity.
  - rewrite Hs. repeat split; try reflexivity.
    rewrite <- app_assoc. reflexivity.
Qed.

(** X17. A submission that the server accepts, followed by a re-fetch
    that the server answers with [L], ends with the items of the store
    equal to [L]: the note appended on [createNote.fulfilled] survives
    only if the server lists it.  No flag is left set, no error is left,
    the query is untouched and the form is empty. *)
Theorem accepted_submit_converges_to_server_list
    (net : Transport) (w : World) (n : Note) (L : list Note)
    (Hsettled : inflight w = [])
    (Hvalid : isValid (form_title (noteForm w)) (form_content (noteForm w))
              = true)
    (Hidle : creating (store w) = false)
    (Hpost : http_post net (sent w)
               {| nc_title := trim (form_title (noteForm w));
                  nc_content := trim (form_content (noteForm w)) |}
             = inr n)
    (Hget : http_get net
              (sent w ++
               [POST_notes
                  {| nc_title := trim (form_title (noteForm w));
                     nc_content := trim (form_content (noteForm w)) |}])
              None
            = inr L) :
  store (snd (run_event (App_submit net) w))
  = {| items := L; loading := false; creating := false; error := None;
       query := query (store w) |} /\
  noteForm (snd (run_event (App_submit net) w))
  = {| form_title := []; form_content := [] |}.
Proof.
  destruct (run_event_App_submit net w Hsettled Hvalid Hidle)
    as [_ [Hform Hrest]].
  unfold form_data in Hrest. rewrite Hpost in Hrest.
  destruct Hrest as [Hst _]. rewrite Hget in Hst.
  split; [rewrite Hst; reflexivity | exact Hform].
Qed.

Lemma accepted_submit_converges_to_server_list_witness :
  (inflight world_python = [] /\
   isValid (form_title (noteForm world_python))
     (form_content (noteForm world_python)) = true /\
   creating (store world_python) = false) /\
  store (snd (run_event (App_submit server_ok) world_python))
  = {| items := [python_guide]; loading := false; creating := false;
       error := None; query := lit "python" |}.
Proof.
  split; [repeat split; reflexivity|].
  refine (proj1 (@accepted_submit_converges_to_server_list server_ok
                   world_python rust_guide [python_guide] _ _ _ _ _));
    reflexivity.
Defined.

(** X18. When the server accepts the note but the re-fetch fails, the
    appended note stays at the end of the previous items and the failure
    of the re-fetch is what [error] reports. *)
Theorem failed_refetch_keeps_appended_note
    (net : Transport) (w : World) (n : Note) (e : Thrown)
    (Hsettled : inflight w = [])
    (Hvalid : isValid (form_title (noteForm w)) (form_content (noteForm w))
              = true)
    (Hidle : creating (store w) = false)
    (Hpost : http_post net (sent w)
               {| nc_title := trim (form_title (noteForm w));
                  nc_content := trim (form_content (noteForm w)) |}
             = inr n)
    (Hget : http_get net
              (sent w ++
               [POST_notes
                  {| nc_title := trim (form_title (noteForm w));
                     nc_content := trim (form_content (noteForm w)) |}])
              None
            = inl e) :
  store (snd (run_event (App_submit net) w))
  = {| items := items (store w) ++ [n]; loading := false;
       creating := false;
       error := Some (surfaced_message e (lit "Failed to fetch notes"));
       query := query (store w) |}.
Proof.
  destruct (run_event_App_submit net w Hsettled Hvalid Hidle)
    as [_ [_ Hrest]].
  unfold form_data in Hrest. rewrite Hpost in Hrest.
  destruct Hrest as [Hst _]. rewrite Hget in Hst.
  rewrite Hst. unfold fetch_outcome. rewrite error_message_surfaced.
  reflexivity.
Qed.

Lemma failed_refetch_keeps_appended_note_witness :
  (inflight world_python = [] /\
   isValid (form_title (noteForm world_python))
     (form_content (noteForm world_python)) = true /\
   creating (store world_python) = false) /\
  store (snd (run_event (App_submit server_write_only) world_python))
  = {| items := [python_guide; rust_guide]; loading := false;
       creating := false; error := Some (lit "Internal Server Error");
       query := lit "python" |}.
Proof.
  split; [repeat split; reflexivity|].
  refine (@failed_refetch_keeps_appended_note server_write_only
            world_python rust_guide
            (AxiosError None (Some (lit "Internal Server Error"))
               (Some (lit "Request failed with status code 500")))
            _ _ _ _ _);
    reflexivity.
Defined.

(** X19. When the server refuses the note, the POST is the only request
    (there is no re-fetch), the items and the [loading] flag are
    untouched, [error] reports the refusal, and the form has been
    emptied all the same. *)
Theorem rejected_submit_sends_no_refetch
    (net : Transport) (w : World) (e : Thrown)
    (Hsettled : inflight w = [])
    (Hvalid : isValid (form_title (noteForm w)) (form_content (noteForm w))
              = true)
    (Hidle : creating (store w) = false)
    (Hpost : http_post net (sent w)
               {| nc_title := trim (form_title (noteForm w));
                  nc_content := trim (form_content (noteForm w)) |}
             = inl e) :
  sent (snd (run_event (App_submit net) w))
  = sent w ++
    [POST_notes {| nc_title := trim (form_title (noteForm w));
                   nc_content := trim (form_content (noteForm w)) |}] /\
  store (snd (run_event (App_submit net) w))
  = {| items := items (store w); loading := loading (store w);
       creating := false;
       error := Some (surfaced_message e (lit "Failed to create note"));
       query := query (store w) |} /\
  noteForm (snd (run_event (App_submit net) w))
  = {| form_title := []; form_content := [] |}.
Proof.
  destruct (run_event_App_submit net w Hsettled Hvalid Hidle)
    as [_ [Hform Hrest]].
  unfold form_data in Hrest. rewrite Hpost in Hrest.
  destruct Hrest as [Hst Hsent].
  split; [exact Hsent|]. split; [|exact Hform].
  rewrite Hst. unfold create_outcome. rewrite error_message_surfaced.
  reflexivity.
Qed.

Lemma rejected_submit_sends_no_refetch_witness :
  (inflight world_python = [] /\
   isValid (form_title (noteForm world_python))
     (form_content (noteForm world_python)) = true /\
   creating (store world_python) = false) /\
  sent (snd (run_event (App_submit server_down) world_python))
  = [POST_notes rust_draft] /\
  error (store (snd (run_event (App_submit server_down) world_python)))
  = Some (lit "Network Error").
Proof.
  split; [repeat split; reflexivity|].
  destruct (@rejected_submit_sends_no_refetch server_down world_python
              (AxiosError None None (Some (lit "Network Error")))
              eq_refl eq_refl eq_refl eq_refl)
    as [Hsent [Hst _]].
  split; [exact Hsent|]. rewrite Hst. reflexivity.
Defined.

Lemma App_submit_invalid (net : Transport) (w : World) :
  isValid (form_title (noteForm w)) (form_content (noteForm w)) = false ->
  App_submit net w = (Ret tt, w).
Proof.
  intros H. unfold App_submit, bind at 1. unfold get_world.
  apply NoteForm_handleSubmit_invalid. exact H.
Qed.

(** X20. Submitting the form never changes the query of the store,
    whether the submission is ignored, accepted or refused and whether
    the re-fetch succeeds or fails. *)
Theorem submit_preserves_query (net : Transport) (w : World)
    (Hsettled : inflight w = []) :
  fst (run_event (App_submit net) w) = Ret tt /\
  query (store (snd (run_event (App_submit net) w))) = query (store w).
Proof.
  destruct (isValid (form_title (noteForm w)) (form_content (noteForm w)))
    eqn:Hv.
  - destruct (creating (store w)) eqn:Hc.
    + unfold run_event. rewrite (App_submit_busy net w Hc).
      unfold settle. rewrite Hsettled. split; reflexivity.
    + destruct (run_event_App_submit net w Hsettled Hv Hc)
        as [Hr [_ Hrest]].
      split; [exact Hr|].
      destruct (http_post net (sent w) (form_data w)) as [e|n].
      * destruct Hrest as [Hst _]. rewrite Hst. reflexivity.
      * destruct Hrest as [Hst _]. rewrite Hst.
        destruct (http_get net (sent w ++ [POST_notes (form_data w)]) None);
          reflexivity.
  - unfold run_event. rewrite (App_submit_invalid net w Hv).
    unfold settle. rewrite Hsettled. split; reflexivity.
Qed.

Lemma submit_preserves_query_witness :
  inflight world_python = [] /\
  query (store (snd (run_event (App_submit server_ok) world_python)))
  = lit "python".
Proof.
  split; [reflexivity|].
  refine (proj2 (submit_preserves_query server_ok world_python _)).
  reflexivity.
Defined.

(** ** Further properties: the first load *)


